(** * Unified data schema for the State of Open Data surveys (2017-2024)

    Shallow embedding of [unified_data_schema.py].

    - A Python [dict] is an insertion-ordered association list;
      [d[k] = v] replaces the value in place when [k] is present and
      appends otherwise, [d.update(e)] performs [d[k] = v] for each item of
      [e] in order, a dict literal is [{}] updated with its items, and a
      dict comprehension inserts the selected items of [d.items()].
    - Python exceptions are [None] in an option result. *)

From Stdlib Require Import List String ZArith Bool Lia.
Import ListNotations.
Open Scope string_scope.
Open Scope list_scope.

(** ** Python dictionaries *)

Module PyDict.
Section Dict.
Variable K V : Type.
Variable eqb : K -> K -> bool.

Definition dict := list (K * V).

Definition keys (d : dict) : list K := map fst d.
Definition values (d : dict) : list V := map snd d.

(** [d.get(k)] *)
Fixpoint lookup (k : K) (d : dict) : option V :=
  match d with
  | [] => None
  | (k', v) :: t => if eqb k k' then Some v else lookup k t
  end.

(** [d[k] = v] *)
Fixpoint setitem (k : K) (v : V) (d : dict) : dict :=
  match d with
  | [] => [(k, v)]
  | (k', v') :: t => if eqb k k' then (k', v) :: t else (k', v') :: setitem k v t
  end.

(** [d.update(e)] *)
Definition update (d e : dict) : dict :=
  fold_left (fun acc kv => setitem (fst kv) (snd kv) acc) e d.

(** The dict literal [{k1: v1, k2: v2, ...}] *)
Definition of_list (l : list (K * V)) : dict := update [] l.

(** [{k: v for k, v in d.items() if p(k, v)}] *)
Definition comprehension (p : K -> V -> bool) (d : dict) : dict :=
  fold_left (fun acc kv => if p (fst kv) (snd kv)
                           then setitem (fst kv) (snd kv) acc else acc) d [].
End Dict.

Arguments keys {K V}.
Arguments values {K V}.
Arguments lookup {K V}.
Arguments setitem {K V}.
Arguments update {K V}.
Arguments of_list {K V}.
Arguments comprehension {K V}.
End PyDict.

Import PyDict.

Section Props.
Context {K V W : Type} (eqb : K -> K -> bool).
Hypothesis eqb_spec : forall a b, eqb a b = true <-> a = b.

Lemma eqb_same a : eqb a a = true.
Proof. apply eqb_spec; reflexivity. Qed.

Lemma eqb_diff a b : a <> b -> eqb a b = false.
Proof.
  intro Hne; destruct (eqb a b) eqn:E; [|reflexivity].
  apply eqb_spec in E; contradiction.
Qed.

Lemma lookup_setitem (x k : K) (v : V) (d : dict K V) :
  lookup eqb x (setitem eqb k v d) = if eqb x k then Some v else lookup eqb x d.
Proof.
  induction d as [|[k' v'] t IH]; simpl.
  - destruct (eqb x k); reflexivity.
  - destruct (eqb k k') eqn:Hk.
    + apply eqb_spec in Hk; subst k'; simpl.
      destruct (eqb x k); reflexivity.
    + simpl; rewrite IH.
      destruct (eqb x k') eqn:Hx, (eqb x k) eqn:Hxk; try reflexivity.
      apply eqb_spec in Hx; apply eqb_spec in Hxk; subst.
      rewrite eqb_same in Hk; discriminate.
Qed.

Lemma setitem_absent {U : Type} (k : K) (v : U) (d : dict K U) :
  ~ In k (keys d) -> setitem eqb k v d = d ++ [(k, v)].
Proof.
  induction d as [|[k' v'] t IH]; simpl; intro Hn; [reflexivity|].
  rewrite eqb_diff by (intro; apply Hn; left; congruence).
  rewrite IH by (intro; apply Hn; right; assumption); reflexivity.
Qed.

Lemma update_app (e acc : dict K V) :
  NoDup (keys (acc ++ e)) -> update eqb acc e = acc ++ e.
Proof.
  revert acc; induction e as [|[k v] e IH]; intros acc Hnd.
  - rewrite app_nil_r; reflexivity.
  - unfold update; simpl.
    unfold keys in Hnd; rewrite map_app in Hnd; simpl in Hnd.
    rewrite setitem_absent.
    + fold (update eqb (acc ++ [(k, v)]) e); rewrite IH.
      * rewrite <- app_assoc; reflexivity.
      * unfold keys; rewrite <- app_assoc, map_app; exact Hnd.
    + intro Hin; apply (NoDup_remove_2 _ _ _ Hnd), in_or_app; left; exact Hin.
Qed.

Lemma of_list_id (l : dict K V) : NoDup (keys l) -> of_list eqb l = l.
Proof. intro H; apply (update_app l []); exact H. Qed.

Lemma comprehension_acc (p : K -> V -> bool) (d acc : dict K V) :
  NoDup (keys acc ++ keys d) ->
  fold_left (fun acc kv => if p (fst kv) (snd kv)
                           then setitem eqb (fst kv) (snd kv) acc else acc) d acc
  = acc ++ filter (fun kv => p (fst kv) (snd kv)) d.
Proof.
  revert acc; induction d as [|[k v] d IH]; intros acc Hnd; simpl.
  - rewrite app_nil_r; reflexivity.
  - simpl in Hnd; destruct (p k v).
    + rewrite setitem_absent
        by (intro Hin; apply (NoDup_remove_2 _ _ _ Hnd), in_or_app; left; exact Hin).
      rewrite IH.
      * rewrite <- app_assoc; reflexivity.
      * unfold keys at 1; rewrite map_app, <- app_assoc; exact Hnd.
    + apply IH, (NoDup_remove_1 _ _ _ Hnd).
Qed.

Lemma comprehension_filter (p : K -> V -> bool) (d : dict K V) :
  NoDup (keys d) ->
  comprehension eqb p d = filter (fun kv => p (fst kv) (snd kv)) d.
Proof. intro H; apply (comprehension_acc p d []); exact H. Qed.

Lemma fold_setitem_map (f : V -> W) (d : dict K V) (acc : dict K W) :
  NoDup (keys acc ++ keys d) ->
  fold_left (fun m kv => setitem eqb (fst kv) (f (snd kv)) m) d acc
  = acc ++ map (fun kv => (fst kv, f (snd kv))) d.
Proof.
  revert acc; induction d as [|[k v] d IH]; intros acc Hnd; simpl.
  - rewrite app_nil_r; reflexivity.
  - simpl in Hnd.
    rewrite setitem_absent
      by (intro Hin; apply (NoDup_remove_2 _ _ _ Hnd), in_or_app; left; exact Hin).
    rewrite IH.
    + rewrite <- app_assoc; reflexivity.
    + unfold keys at 1; rewrite map_app; simpl; rewrite <- app_assoc; exact Hnd.
Qed.

Lemma keys_filter_incl (q : K * V -> bool) (d : dict K V) (x : K) :
  In x (keys (filter q d)) -> In x (keys d).
Proof.
  unfold keys; rewrite !in_map_iff; intros [kv [Hx Hin]].
  apply filter_In in Hin; exists kv; tauto.
Qed.

Lemma keys_filter_NoDup (q : K * V -> bool) (d : dict K V) :
  NoDup (keys d) -> NoDup (keys (filter q d)).
Proof.
  induction d as [|[k v] d IH]; simpl; intro Hnd; [constructor|].
  inversion Hnd as [|? ? Hn Hnd']; subst.
  destruct (q (k, v)); simpl; [constructor|]; auto.
  intro Hin; apply Hn, (keys_filter_incl q), Hin.
Qed.

Lemma lookup_In (d : dict K V) (k : K) (v : V) :
  NoDup (keys d) -> (lookup eqb k d = Some v <-> In (k, v) d).
Proof.
  induction d as [|[k' v'] d IH]; simpl; intro Hnd.
  - split; [discriminate | contradiction].
  - inversion Hnd as [|? ? Hn Hnd']; subst.
    destruct (eqb k k') eqn:Hk.
    + apply eqb_spec in Hk; subst k'; split.
      * intro H; injection H as <-; left; reflexivity.
      * intros [H|H]; [congruence|].
        exfalso; apply Hn, in_map_iff; exists (k, v); auto.
    + rewrite IH by exact Hnd'; split; [right; exact H|].
      intros [H|H]; [|exact H].
      injection H as <- <-; rewrite eqb_same in Hk; discriminate.
Qed.

Lemma lookup_filter (q : K * V -> bool) (d : dict K V) (k : K) (v : V) :
  NoDup (keys d) ->
  (lookup eqb k (filter q d) = Some v <-> lookup eqb k d = Some v /\ q (k, v) = true).
Proof.
  intro Hnd; rewrite (lookup_In (filter q d)), lookup_In, filter_In
    by (try apply keys_filter_NoDup; exact Hnd).
  reflexivity.
Qed.

Lemma lookup_some_keys (d : dict K V) (k : K) (v : V) :
  lookup eqb k d = Some v -> In k (keys d).
Proof.
  induction d as [|[k' v'] d IH]; simpl; [discriminate|].
  destruct (eqb k k') eqn:Hk; intro H.
  - left; symmetry; apply eqb_spec, Hk.
  - right; auto.
Qed.

Lemma lookup_values (d : dict K V) (k : K) (v : V) :
  lookup eqb k d = Some v -> In v (values d).
Proof.
  induction d as [|[k' v'] d IH]; simpl; [discriminate|].
  destruct (eqb k k'); intro H; [injection H as <-; left; reflexivity | right; auto].
Qed.

Lemma keys_setitem_In {U : Type} (x k : K) (v : U) (d : dict K U) :
  In x (keys (setitem eqb k v d)) -> x = k \/ In x (keys d).
Proof.
  induction d as [|[k' v'] t IH]; simpl.
  - intros [H|[]]; left; symmetry; exact H.
  - destruct (eqb k k'); simpl; intros [H|H]; auto.
    destruct (IH H); auto.
Qed.

Lemma setitem_NoDup {U : Type} (k : K) (v : U) (d : dict K U) :
  NoDup (keys d) -> NoDup (keys (setitem eqb k v d)).
Proof.
  induction d as [|[k' v'] t IH]; simpl; intro Hnd.
  - constructor; [intros []|constructor].
  - inversion Hnd as [|? ? Hn Hnd']; subst.
    destruct (eqb k k') eqn:Hk; simpl; [exact Hnd|].
    constructor; [|auto].
    intro Hin; destruct (keys_setitem_In k' k v t Hin) as [E|E]; [|contradiction].
    subst; rewrite eqb_same in Hk; discriminate.
Qed.

Lemma update_NoDup (d e : dict K V) :
  NoDup (keys d) -> NoDup (keys (update eqb d e)).
Proof.
  unfold update; revert d; induction e as [|[k v] e IH]; intros d Hnd; simpl;
    [exact Hnd|].
  apply IH, setitem_NoDup, Hnd.
Qed.

Lemma comprehension_NoDup (p : K -> V -> bool) (d : dict K V) :
  NoDup (keys (comprehension eqb p d)).
Proof.
  unfold comprehension.
  assert (H : NoDup (keys (@nil (K * V)))) by constructor.
  revert H; generalize (@nil (K * V)) as acc.
  induction d as [|[k v] d IH]; intros acc Hnd; simpl; [exact Hnd|].
  apply IH; destruct (p k v); [apply setitem_NoDup|]; exact Hnd.
Qed.

Lemma lookup_notin (d : dict K V) (k : K) :
  ~ In k (keys d) -> lookup eqb k d = None.
Proof.
  intro Hn; destruct (lookup eqb k d) eqn:E; [|reflexivity].
  exfalso; apply Hn, (lookup_some_keys d k v E).
Qed.

Lemma lookup_map (f : V -> W) (d : dict K V) (k : K) :
  lookup eqb k (map (fun kv => (fst kv, f (snd kv))) d) = option_map f (lookup eqb k d).
Proof.
  induction d as [|[k' v'] d IH]; simpl; [reflexivity|].
  destruct (eqb k k'); [reflexivity | exact IH].
Qed.
End Props.

(** ** Enumerations *)

Inductive QuestionType :=
| LIKERT_5 | LIKERT_4 | LIKERT_3 | MULTIPLE_CHOICE | MULTIPLE_SELECT
| OPEN_TEXT | DEMOGRAPHIC | BINARY.

Inductive ResponseScale :=
| AGREEMENT_5 | AGREEMENT_5_ALT | FREQUENCY_4 | FREQUENCY_4_ALT
| YES_NO_UNSURE | YES_NO_DONT_KNOW | CREDIT_3 | FAMILIARITY_3.

(** [ResponseScale.X.value] *)
Definition value (s : ResponseScale) : list string :=
  match s with
  | AGREEMENT_5 => ["Strongly disagree"; "Somewhat disagree"; "Neutral"; "Somewhat agree"; "Strongly agree"]
  | AGREEMENT_5_ALT => ["Strongly disagree"; "Somewhat disagree"; "Neutral / No opinion"; "Somewhat agree"; "Strongly agree"]
  | FREQUENCY_4 => ["Never"; "Rarely"; "Sometimes"; "Frequently"]
  | FREQUENCY_4_ALT => ["Never"; "Rarely"; "Often"; "Always"]
  | YES_NO_UNSURE => ["Yes"; "No"; "Unsure"]
  | YES_NO_DONT_KNOW => ["Yes"; "No"; "Don't know"]
  | CREDIT_3 => ["No, too little credit"; "Yes"; "No, too much credit"]
  | FAMILIARITY_3 => ["I am familiar with the data principles";
                      "I have previously heard of the data principles but I am not familiar with them";
                      "I have never heard of the data principles before now"]
  end.

(** ** The [QuestionMapping] dataclass *)

Record QuestionMapping := {
  question_id : string;
  question_text : string;
  question_type : QuestionType;
  response_scale : list string;
  years_available : list Z;
  column_mappings : dict Z string;
  notes : option string
}.

Definition sdict := dict string QuestionMapping.
Definition qdict (l : list (string * QuestionMapping)) : sdict := of_list String.eqb l.
Definition ydict (l : list (Z * string)) : dict Z string := of_list Z.eqb l.

(** ** The [UnifiedSchema] catalogue: the four builder routines *)

Definition _define_core_questions : sdict :=
  qdict [
    ("open_access_attitude",
     {| question_id := "open_access_attitude";
        question_text := "Making research articles open access should be common scholarly practice";
        question_type := LIKERT_5;
        response_scale := value AGREEMENT_5;
        years_available := [2021%Z; 2022%Z; 2023%Z; 2024%Z];
        column_mappings := ydict [(2021%Z, "Q2.7_1"); (2022%Z, "Q2.11_1"); (2023%Z, "Q2.10.a"); (2024%Z, "Q12_1")];
        notes := Some "Highest consistency across years - core trend indicator" |});
    ("open_data_attitude",
     {| question_id := "open_data_attitude";
        question_text := "Making research data openly available should be common scholarly practice";
        question_type := LIKERT_5;
        response_scale := value AGREEMENT_5;
        years_available := [2021%Z; 2022%Z; 2023%Z; 2024%Z];
        column_mappings := ydict [(2021%Z, "Q2.7_2"); (2022%Z, "Q2.11_2"); (2023%Z, "Q2.10.b"); (2024%Z, "Q12_2")];
        notes := Some "Core data sharing attitude - primary outcome measure" |});
    ("open_peer_review_attitude",
     {| question_id := "open_peer_review_attitude";
        question_text := "Making peer review open should be common scholarly practice";
        question_type := LIKERT_5;
        response_scale := value AGREEMENT_5;
        years_available := [2022%Z; 2023%Z; 2024%Z];
        column_mappings := ydict [(2022%Z, "Q2.11_3"); (2023%Z, "Q2.10.c"); (2024%Z, "Q12_3")];
        notes := Some "Introduced in 2022 - good trend indicator" |});
    ("preprinting_attitude",
     {| question_id := "preprinting_attitude";
        question_text := "Preprinting should be common scholarly practice";
        question_type := LIKERT_5;
        response_scale := value AGREEMENT_5;
        years_available := [2022%Z; 2023%Z; 2024%Z];
        column_mappings := ydict [(2022%Z, "Q2.11_4"); (2023%Z, "Q2.10.d"); (2024%Z, "Q12_4")];
        notes := Some "Introduced in 2022 - tracks preprint adoption attitudes" |});
    ("data_sharing_frequency",
     {| question_id := "data_sharing_frequency";
        question_text := "How often have you made your research data openly available?";
        question_type := LIKERT_4;
        response_scale := value FREQUENCY_4;
        years_available := [2017%Z];
        column_mappings := ydict [(2017%Z, "Q2.2")];
        notes := Some "Core behavioral measure - need to map similar questions in other years" |});
    ("credit_for_sharing",
     {| question_id := "credit_for_sharing";
        question_text := "Do you think researchers currently get sufficient credit for sharing data?";
        question_type := MULTIPLE_CHOICE;
        response_scale := value CREDIT_3;
        years_available := [2019%Z; 2022%Z];
        column_mappings := ydict [(2019%Z, "Q2.4"); (2022%Z, "Q3.2")];
        notes := Some "Important motivational factor" |});
    ("fair_principles_awareness",
     {| question_id := "fair_principles_awareness";
        question_text := "How familiar are you with FAIR data principles (Findable, Accessible, Interoperable, Reusable)?";
        question_type := MULTIPLE_CHOICE;
        response_scale := value FAMILIARITY_3;
        years_available := [2022%Z; 2023%Z];
        column_mappings := ydict [(2022%Z, "Q3.1_1"); (2023%Z, "Q2.11.a")];
        notes := Some "Key knowledge indicator for data management" |})].

Definition _define_demographic_questions : sdict :=
  qdict [
    ("job_title",
     {| question_id := "job_title";
        question_text := "Which of the following job titles best applies to you?";
        question_type := MULTIPLE_CHOICE;
        response_scale := ["Professor"; "Associate Professor"; "Research Scientist"; "PhD Student"; "Postdoc"; "Other"];
        years_available := [2017%Z; 2019%Z; 2022%Z; 2023%Z; 2024%Z];
        column_mappings := ydict [(2017%Z, "Q10.5"); (2019%Z, "Q6.5"); (2022%Z, "Q2.6"); (2023%Z, "Q2.6"); (2024%Z, "Q7")];
        notes := Some "Response categories vary by year but can be harmonized" |});
    ("research_area",
     {| question_id := "research_area";
        question_text := "Which of the following best describes your primary area of interest?";
        question_type := MULTIPLE_CHOICE;
        response_scale := ["Medicine"; "Engineering"; "Physics"; "Biology"; "Other"];
        years_available := [2021%Z; 2022%Z; 2023%Z; 2024%Z];
        column_mappings := ydict [(2021%Z, "Q2.4"); (2022%Z, "Q2.7"); (2023%Z, "Q2.7"); (2024%Z, "Q8")];
        notes := Some "Consistent categories with some variation" |});
    ("publication_history",
     {| question_id := "publication_history";
        question_text := "When was the last occasion that you published or submitted a manuscript to a journal?";
        question_type := MULTIPLE_CHOICE;
        response_scale := ["Within the last year"; "1-2 years ago"; "3-5 years ago"; "More than 5 years ago"; "Never"];
        years_available := [2021%Z; 2022%Z; 2023%Z; 2024%Z];
        column_mappings := ydict [(2021%Z, "Q2.1"); (2022%Z, "Q2.3"); (2023%Z, "Q2.1"); (2024%Z, "Q4")];
        notes := Some "Good indicator of research activity level" |});
    ("organization_type",
     {| question_id := "organization_type";
        question_text := "Which type of organisation do you work in?";
        question_type := MULTIPLE_CHOICE;
        response_scale := ["University"; "Research institution"; "Medical school"; "Private company"; "Other"];
        years_available := [2022%Z; 2023%Z; 2024%Z];
        column_mappings := ydict [(2022%Z, "Q2.4"); (2023%Z, "Q2.4"); (2024%Z, "Q5")];
        notes := Some "Institutional context indicator" |})].

Definition _define_supplementary_questions : sdict :=
  qdict [
    ("funder_mandate_support",
     {| question_id := "funder_mandate_support";
        question_text := "Should funders make the sharing of research data part of their requirements for awarding grants?";
        question_type := LIKERT_3;
        response_scale := value YES_NO_DONT_KNOW;
        years_available := [2019%Z];
        column_mappings := ydict [(2019%Z, "Q2.2")];
        notes := Some "Important policy question - 2019 focus" |});
    ("national_mandate_support",
     {| question_id := "national_mandate_support";
        question_text := "How supportive would you be of a national mandate for making primary research data openly available?";
        question_type := LIKERT_5;
        response_scale := ["Strongly oppose"; "Somewhat oppose"; "Neutral"; "Somewhat support"; "Strongly support"];
        years_available := [2019%Z];
        column_mappings := ydict [(2019%Z, "Q2.3")];
        notes := Some "Policy attitude indicator" |});
    ("care_principles_awareness",
     {| question_id := "care_principles_awareness";
        question_text := "How familiar are you with CARE principles for Indigenous Data Governance?";
        question_type := MULTIPLE_CHOICE;
        response_scale := value FAMILIARITY_3;
        years_available := [2022%Z];
        column_mappings := ydict [(2022%Z, "Q3.1_2")];
        notes := Some "Ethical data governance awareness" |})].

Definition _define_historical_questions : sdict :=
  qdict [
    ("data_sharing_motivations",
     {| question_id := "data_sharing_motivations";
        question_text := "What circumstances would motivate you to share your data?";
        question_type := MULTIPLE_SELECT;
        response_scale := ["Institution requirement"; "Funder requirement"; "Transparency"; "Credit"; "Other"];
        years_available := [2017%Z];
        column_mappings := ydict [(2017%Z, "Q2.3_*")];
        notes := Some "Comprehensive motivation analysis - 2017 baseline" |});
    ("data_sharing_effort",
     {| question_id := "data_sharing_effort";
        question_text := "How much effort is typically required to make your data re-usable by others?";
        question_type := LIKERT_4;
        response_scale := ["No effort"; "Little effort"; "Some effort"; "A lot of effort"];
        years_available := [2017%Z];
        column_mappings := ydict [(2017%Z, "Q2.5")];
        notes := Some "Barrier assessment - effort required" |});
    ("data_ownership_before_pub",
     {| question_id := "data_ownership_before_pub";
        question_text := "Who owns the data you produce during the course of your research before publication?";
        question_type := MULTIPLE_SELECT;
        response_scale := ["You"; "Your institution"; "Your funder"; "Other"];
        years_available := [2017%Z];
        column_mappings := ydict [(2017%Z, "Q2.6_*")];
        notes := Some "Ownership understanding - pre-publication" |});
    ("data_ownership_after_pub",
     {| question_id := "data_ownership_after_pub";
        question_text := "Who owns the data you produce during the course of your research after publication?";
        question_type := MULTIPLE_SELECT;
        response_scale := ["You"; "Your institution"; "Your funder"; "Other"];
        years_available := [2017%Z];
        column_mappings := ydict [(2017%Z, "Q2.7_*")];
        notes := Some "Ownership understanding - post-publication" |})].

Record UnifiedSchema := {
  core_questions : sdict;
  demographic_questions : sdict;
  supplementary_questions : sdict;
  historical_questions : sdict
}.

(** [UnifiedSchema()] *)
Definition UnifiedSchema_init : UnifiedSchema := {|
  core_questions := _define_core_questions;
  demographic_questions := _define_demographic_questions;
  supplementary_questions := _define_supplementary_questions;
  historical_questions := _define_historical_questions
|}.

(** ** Query operations *)

Definition get_all_questions (self : UnifiedSchema) : sdict :=
  let all_questions := [] in
  let all_questions := update String.eqb all_questions (core_questions self) in
  let all_questions := update String.eqb all_questions (demographic_questions self) in
  let all_questions := update String.eqb all_questions (supplementary_questions self) in
  let all_questions := update String.eqb all_questions (historical_questions self) in
  all_questions.

(** Python's [x in xs] on a list of integers *)
Definition z_in (x : Z) (xs : list Z) : bool := existsb (Z.eqb x) xs.

Definition get_questions_by_year (self : UnifiedSchema) (year : Z) : sdict :=
  comprehension String.eqb (fun _ q => z_in year (years_available q))
    (get_all_questions self).

Definition get_longitudinal_questions (self : UnifiedSchema) (min_years : Z) : sdict :=
  comprehension String.eqb
    (fun _ q => (min_years <=? Z.of_nat (List.length (years_available q)))%Z)
    (get_all_questions self).

(** the default argument [min_years = 2] *)
Definition get_longitudinal_questions_default (self : UnifiedSchema) : sdict :=
  get_longitudinal_questions self 2.

Definition get_core_trend_questions (self : UnifiedSchema) : sdict :=
  comprehension String.eqb
    (fun _ q => (3 <=? Z.of_nat (List.length (years_available q)))%Z)
    (core_questions self).

(** ** Harmonisation utilities *)

(** Python's [x in xs] on a list of strings *)
Definition str_in (x : string) (xs : list string) : bool := existsb (String.eqb x) xs.

(** [xs.index(x)]: the first position of [x]; [None] is the [ValueError]. *)
Fixpoint py_index (x : string) (xs : list string) : option nat :=
  match xs with
  | [] => None
  | y :: t => if String.eqb x y then Some 0 else option_map S (py_index x t)
  end.

(** [xs[i]] for [i >= 0]; [None] is the [IndexError]. *)
Definition py_getitem {A : Type} (xs : list A) (i : nat) : option A := nth_error xs i.

Definition harmonize_response_scale (response : string)
    (source_scale target_scale : list string) : option string :=
  if str_in response source_scale then
    match py_index response source_scale with
    | None => None
    | Some idx =>
        if Nat.ltb idx (List.length target_scale) then py_getitem target_scale idx
        else Some response
    end
  else Some response.

Definition create_harmonized_column_mapping : dict string (dict Z string) :=
  let schema := UnifiedSchema_init in
  fold_left (fun mapping kv => setitem String.eqb (fst kv) (column_mappings (snd kv)) mapping)
    (get_all_questions schema) [].

(** ** Membership and position helpers *)

Lemma str_in_spec (x : string) (xs : list string) : str_in x xs = true <-> In x xs.
Proof.
  unfold str_in; rewrite existsb_exists; split.
  - intros [y [Hy E]]; apply String.eqb_eq in E; subst; exact Hy.
  - intro H; exists x; split; [exact H | apply String.eqb_refl].
Qed.

Lemma z_in_spec (x : Z) (xs : list Z) : z_in x xs = true <-> In x xs.
Proof.
  unfold z_in; rewrite existsb_exists; split.
  - intros [y [Hy E]]; apply Z.eqb_eq in E; subst; exact Hy.
  - intro H; exists x; split; [exact H | apply Z.eqb_refl].
Qed.

Lemma py_index_none (x : string) (xs : list string) :
  py_index x xs = None <-> ~ In x xs.
Proof.
  induction xs as [|y t IH]; simpl; [tauto|].
  destruct (String.eqb x y) eqn:E.
  - apply String.eqb_eq in E; subst; split; [discriminate|].
    intro Hn; exfalso; apply Hn; left; reflexivity.
  - apply String.eqb_neq in E.
    destruct (py_index x t) eqn:P; simpl.
    + split; [discriminate|]; intro Hn; exfalso; apply Hn; right.
      destruct (in_dec String.string_dec x t) as [Hi|Hi]; [exact Hi|].
      apply IH in Hi; discriminate.
    + split; [|reflexivity].
      intros _ [H|H]; [congruence|].
      apply (proj1 IH eq_refl); exact H.
Qed.

Lemma py_index_first (x : string) (xs : list string) (i : nat) :
  nth_error xs i = Some x ->
  (forall j, (j < i)%nat -> nth_error xs j <> Some x) ->
  py_index x xs = Some i.
Proof.
  revert i; induction xs as [|y t IH]; intros i Hi Hfirst.
  - destruct i; discriminate.
  - simpl; destruct i as [|i]; simpl in Hi.
    + injection Hi as ->; rewrite String.eqb_refl; reflexivity.
    + destruct (String.eqb x y) eqn:E.
      * apply String.eqb_eq in E; subst.
        exfalso; apply (Hfirst 0%nat); [lia | reflexivity].
      * rewrite (IH i Hi); [reflexivity|].
        intros j Hj; apply (Hfirst (S j)); lia.
Qed.

Lemma py_index_nth (x : string) (xs : list string) (i : nat) :
  py_index x xs = Some i -> nth_error xs i = Some x.
Proof.
  revert i; induction xs as [|y t IH]; intros i; simpl; [discriminate|].
  destruct (String.eqb x y) eqn:E.
  - intro H; injection H as <-; apply String.eqb_eq in E; subst; reflexivity.
  - destruct (py_index x t) as [n|] eqn:P; simpl; [|discriminate].
    intro H; injection H as <-; simpl; apply IH; reflexivity.
Qed.

(** ** Harmonisation of response scales *)

(** C1: a response outside [source_scale] is returned unchanged, and so is a
    response whose (first) position in [source_scale] has no counterpart in
    [target_scale]; "Strongly agree" from AGREEMENT_5 to FREQUENCY_4 is
    returned as is. *)
Theorem harmonize_passthrough :
  (forall response source_scale target_scale,
      ~ In response source_scale ->
      harmonize_response_scale response source_scale target_scale = Some response) /\
  (forall response source_scale target_scale i,
      nth_error source_scale i = Some response ->
      (forall j, (j < i)%nat -> nth_error source_scale j <> Some response) ->
      (List.length target_scale <= i)%nat ->
      harmonize_response_scale response source_scale target_scale = Some response) /\
  harmonize_response_scale "Strongly agree" (value AGREEMENT_5) (value FREQUENCY_4)
  = Some "Strongly agree".
Proof.
  split; [|split].
  - intros r s t Hn; unfold harmonize_response_scale.
    destruct (str_in r s) eqn:E; [|reflexivity].
    apply str_in_spec in E; contradiction.
  - intros r s t i Hi Hfirst Hlen; unfold harmonize_response_scale.
    rewrite (proj2 (str_in_spec r s)) by (apply (nth_error_In s i Hi)).
    rewrite (py_index_first r s i Hi Hfirst).
    destruct (Nat.ltb_spec i (List.length t)); [lia | reflexivity].
  - reflexivity.
Qed.

Lemma harmonize_passthrough_witness :
  (~ In "Unknown" (value AGREEMENT_5) /\
   harmonize_response_scale "Unknown" (value AGREEMENT_5) (value FREQUENCY_4) = Some "Unknown") /\
  (nth_error (value AGREEMENT_5) 4 = Some "Strongly agree" /\
   harmonize_response_scale "Strongly agree" (value AGREEMENT_5) (value FREQUENCY_4)
   = Some "Strongly agree").
Proof.
  assert (Hn : ~ In "Unknown" (value AGREEMENT_5)).
  { simpl; intros H; repeat destruct H as [H|H]; discriminate || contradiction. }
  split; split.
  - exact Hn.
  - apply (proj1 harmonize_passthrough); exact Hn.
  - reflexivity.
  - apply ((proj1 (proj2 harmonize_passthrough)) _ _ _ 4%nat).
    + reflexivity.
    + intros j Hj.
      destruct j as [|[|[|[|j]]]]; simpl; try discriminate; lia.
    + simpl; lia.
Defined.

(** C5: a response found at (first) position [i] of [source_scale], with [i]
    inside [target_scale], is mapped to the label at position [i] of
    [target_scale]. *)
Theorem harmonize_same_position :
  forall response source_scale target_scale i,
    nth_error source_scale i = Some response ->
    (forall j, (j < i)%nat -> nth_error source_scale j <> Some response) ->
    (i < List.length target_scale)%nat ->
    harmonize_response_scale response source_scale target_scale
    = Some (nth i target_scale response).
Proof.
  intros r s t i Hi Hfirst Hlen; unfold harmonize_response_scale.
  rewrite (proj2 (str_in_spec r s)) by (apply (nth_error_In s i Hi)).
  rewrite (py_index_first r s i Hi Hfirst).
  destruct (Nat.ltb_spec i (List.length t)); [|lia].
  unfold py_getitem; apply nth_error_nth'; exact Hlen.
Qed.

Lemma harmonize_same_position_witness :
  harmonize_response_scale "Somewhat agree" (value AGREEMENT_5) (value FREQUENCY_4)
  = Some "Frequently".
Proof.
  apply (harmonize_same_position "Somewhat agree" (value AGREEMENT_5) (value FREQUENCY_4) 3%nat).
  - reflexivity.
  - intros j Hj; destruct j as [|[|[|j]]]; simpl; try discriminate; lia.
  - simpl; lia.
Defined.

(** C9: [harmonize_response_scale] never raises: for all strings and string
    lists it returns a value; the [index] call never raises [ValueError]
    (it only runs on a member) and the subscript of [target_scale] never
    raises [IndexError] (it only runs below the length).  The query
    operations are total by construction: each is a Rocq function of its
    arguments, built from dictionary updates, membership tests and length
    comparisons only, none of which can fail. *)
Theorem harmonize_total :
  (forall response source_scale target_scale,
      exists v, harmonize_response_scale response source_scale target_scale = Some v) /\
  (forall response source_scale,
      str_in response source_scale = true -> py_index response source_scale <> None) /\
  (forall (target_scale : list string) idx,
      Nat.ltb idx (List.length target_scale) = true -> py_getitem target_scale idx <> None).
Proof.
  assert (Hidx : forall r s, str_in r s = true -> py_index r s <> None).
  { intros r s H E; apply py_index_none in E; apply str_in_spec in H; contradiction. }
  assert (Hget : forall (t : list string) idx,
             Nat.ltb idx (List.length t) = true -> py_getitem t idx <> None).
  { intros t idx H; apply Nat.ltb_lt in H; unfold py_getitem.
    apply nth_error_Some; exact H. }
  split; [|split; [exact Hidx|exact Hget]].
  - intros r s t; unfold harmonize_response_scale.
    destruct (str_in r s) eqn:E; [|eexists; reflexivity].
    destruct (py_index r s) as [idx|] eqn:P; [|exfalso; exact (Hidx r s E P)].
    destruct (Nat.ltb idx (List.length t)) eqn:L; [|eexists; reflexivity].
    destruct (py_getitem t idx) eqn:G; [eexists; reflexivity|].
    exfalso; exact (Hget t idx L G).
Qed.

Lemma harmonize_total_witness :
  py_index "Neutral" (value AGREEMENT_5) <> None /\
  py_getitem (value FREQUENCY_4) 2 <> None.
Proof.
  split.
  - apply (proj1 (proj2 harmonize_total)); reflexivity.
  - apply (proj2 (proj2 harmonize_total)); reflexivity.
Defined.

(** ** Facts about the built catalogue *)

Fixpoint nodupb (l : list string) : bool :=
  match l with
  | [] => true
  | x :: t => negb (str_in x t) && nodupb t
  end.

Lemma nodupb_NoDup (l : list string) : nodupb l = true -> NoDup l.
Proof.
  induction l as [|x t IH]; simpl; intro H; [constructor|].
  apply andb_true_iff in H as [Hn Ht]; constructor; [|auto].
  intro Hin; apply str_in_spec in Hin; rewrite Hin in Hn; discriminate.
Qed.

Ltac by_computation := vm_compute; reflexivity.

(** The entries of the four category mappings, in merge order. *)
Definition catalogue_items (self : UnifiedSchema) : sdict :=
  core_questions self ++ demographic_questions self
  ++ supplementary_questions self ++ historical_questions self.

(** The largest number of available years of any question. *)
Definition max_span (self : UnifiedSchema) : nat :=
  fold_right Nat.max 0%nat
    (map (fun q => List.length (years_available q)) (values (get_all_questions self))).

Lemma catalogue_keys_NoDup : NoDup (keys (catalogue_items UnifiedSchema_init)).
Proof. apply nodupb_NoDup; by_computation. Qed.

Lemma get_all_questions_items :
  get_all_questions UnifiedSchema_init = catalogue_items UnifiedSchema_init.
Proof. by_computation. Qed.

Lemma get_all_questions_NoDup (self : UnifiedSchema) :
  NoDup (keys (get_all_questions self)).
Proof.
  unfold get_all_questions.
  repeat apply update_NoDup; try exact String.eqb_eq; constructor.
Qed.

Lemma core_keys_NoDup : NoDup (keys (core_questions UnifiedSchema_init)).
Proof. apply nodupb_NoDup; by_computation. Qed.

Lemma filter_all_true {A : Type} (f : A -> bool) (l : list A) :
  (forall x, In x l -> f x = true) -> filter f l = l.
Proof.
  induction l as [|x t IH]; simpl; intro H; [reflexivity|].
  rewrite (H x (or_introl eq_refl)), IH by auto; reflexivity.
Qed.

Lemma filter_all_false {A : Type} (f : A -> bool) (l : list A) :
  (forall x, In x l -> f x = false) -> filter f l = [].
Proof.
  induction l as [|x t IH]; simpl; intro H; [reflexivity|].
  rewrite (H x (or_introl eq_refl)); auto.
Qed.

Lemma le_fold_max (n : nat) (l : list nat) : In n l -> (n <= fold_right Nat.max 0 l)%nat.
Proof. induction l as [|x t IH]; simpl; [tauto|]; intros [<-|H]; [lia | specialize (IH H); lia]. Qed.

Lemma NoDup_app_disjoint {A : Type} (l1 l2 : list A) (x : A) :
  NoDup (l1 ++ l2) -> In x l2 -> ~ In x l1.
Proof.
  induction l1 as [|y t IH]; simpl; intros Hnd Hx; [tauto|].
  inversion Hnd as [|? ? Hn Hnd']; subst.
  intros [<-|H]; [apply Hn, in_or_app; right; exact Hx | exact (IH Hnd' Hx H)].
Qed.

Lemma keys_comprehension_incl (p : string -> QuestionMapping -> bool) (d : sdict) (x : string) :
  In x (keys (comprehension String.eqb p d)) -> In x (keys d).
Proof.
  unfold comprehension.
  enough (H : forall acc, In x (keys (fold_left (fun acc kv => if p (fst kv) (snd kv)
            then setitem String.eqb (fst kv) (snd kv) acc else acc) d acc)) ->
            In x (keys acc) \/ In x (keys d)) by (intro Hin; destruct (H [] Hin); [contradiction|exact H0]).
  induction d as [|[k v] d IH]; simpl; intros acc Hin; [left; exact Hin|].
  destruct (IH _ Hin) as [H|H]; [|right; right; exact H].
  destruct (p k v); [|left; exact H].
  destruct (keys_setitem_In String.eqb x k v acc H); [right; left; congruence | left; assumption].
Qed.

(** C4: [get_questions_by_year(y)] keeps exactly the entries of
    [get_all_questions()] whose [years_available] contains [y]; for 2020 it
    is the empty mapping. *)
Theorem questions_by_year_spec :
  (forall self year,
      get_questions_by_year self year
      = filter (fun kv => z_in year (years_available (snd kv))) (get_all_questions self)) /\
  (forall self year qid q,
      lookup String.eqb qid (get_questions_by_year self year) = Some q <->
      lookup String.eqb qid (get_all_questions self) = Some q /\ In year (years_available q)) /\
  get_questions_by_year UnifiedSchema_init 2020 = [].
Proof.
  assert (Hf : forall self year,
             get_questions_by_year self year
             = filter (fun kv => z_in year (years_available (snd kv))) (get_all_questions self)).
  { intros self year; unfold get_questions_by_year.
    apply (comprehension_filter String.eqb String.eqb_eq
             (fun _ q => z_in year (years_available q))), get_all_questions_NoDup. }
  split; [exact Hf|split].
  - intros self year qid q; rewrite Hf.
    rewrite (lookup_filter String.eqb String.eqb_eq) by apply get_all_questions_NoDup.
    simpl; rewrite z_in_spec; reflexivity.
  - by_computation.
Qed.

Lemma questions_by_year_spec_witness :
  exists q, lookup String.eqb "job_title" (get_questions_by_year UnifiedSchema_init 2017) = Some q.
Proof.
  destruct (lookup String.eqb "job_title" (get_all_questions UnifiedSchema_init)) as [q|] eqn:E;
    [|vm_compute in E; discriminate].
  exists q; apply (proj2 (proj1 (proj2 questions_by_year_spec) _ _ _ _)).
  split; [exact E|].
  vm_compute in E; injection E as <-; simpl; tauto.
Defined.

(** C3: [get_longitudinal_questions(min_years=k)] keeps exactly the entries
    of [get_all_questions()] with at least [k] available years, for every
    integer [k]; for [k <= 0] it is the whole catalogue and for [k] above the
    largest span it is empty (the largest span of the built catalogue is 5). *)
Theorem longitudinal_questions_spec :
  (forall self min_years qid q,
      lookup String.eqb qid (get_longitudinal_questions self min_years) = Some q <->
      lookup String.eqb qid (get_all_questions self) = Some q /\
      (min_years <= Z.of_nat (List.length (years_available q)))%Z) /\
  (forall self min_years, (min_years <= 0)%Z ->
      get_longitudinal_questions self min_years = get_all_questions self) /\
  (forall self min_years, (Z.of_nat (max_span self) < min_years)%Z ->
      get_longitudinal_questions self min_years = []) /\
  max_span UnifiedSchema_init = 5%nat.
Proof.
  assert (Hf : forall self min_years,
             get_longitudinal_questions self min_years
             = filter (fun kv => (min_years <=? Z.of_nat (List.length (years_available (snd kv))))%Z)
                 (get_all_questions self)).
  { intros self k; unfold get_longitudinal_questions.
    apply (comprehension_filter String.eqb String.eqb_eq
             (fun _ q => (k <=? Z.of_nat (List.length (years_available q)))%Z)),
      get_all_questions_NoDup. }
  split; [|split; [|split]].
  - intros self k qid q; rewrite Hf.
    rewrite (lookup_filter String.eqb String.eqb_eq) by apply get_all_questions_NoDup.
    simpl; rewrite Z.leb_le; reflexivity.
  - intros self k Hk; rewrite Hf; apply filter_all_true.
    intros x _; apply Z.leb_le; lia.
  - intros self k Hk; rewrite Hf; apply filter_all_false.
    intros [qid q] Hin; simpl; apply Z.leb_gt.
    assert (Hle : (List.length (years_available q) <= max_span self)%nat).
    { apply le_fold_max, (in_map (fun q => List.length (years_available q))).
      exact (in_map snd _ (qid, q) Hin). }
    lia.
  - by_computation.
Qed.

Lemma longitudinal_questions_spec_witness :
  get_longitudinal_questions UnifiedSchema_init 0 = get_all_questions UnifiedSchema_init /\
  get_longitudinal_questions UnifiedSchema_init 6 = [].
Proof.
  split.
  - apply (proj1 (proj2 longitudinal_questions_spec)); lia.
  - apply (proj1 (proj2 (proj2 longitudinal_questions_spec))).
    rewrite (proj2 (proj2 (proj2 longitudinal_questions_spec))); lia.
Defined.

(** C2: [get_core_trend_questions()] keeps exactly the core entries with at
    least 3 available years; no demographic, supplementary or historical
    question is in it, in particular not [job_title], a demographic question
    with 5 years. *)
Theorem core_trend_questions_spec :
  (forall qid q,
      lookup String.eqb qid (get_core_trend_questions UnifiedSchema_init) = Some q <->
      lookup String.eqb qid (core_questions UnifiedSchema_init) = Some q /\
      (3 <= Z.of_nat (List.length (years_available q)))%Z) /\
  (forall qid q,
      lookup String.eqb qid (demographic_questions UnifiedSchema_init) = Some q \/
      lookup String.eqb qid (supplementary_questions UnifiedSchema_init) = Some q \/
      lookup String.eqb qid (historical_questions UnifiedSchema_init) = Some q ->
      lookup String.eqb qid (get_core_trend_questions UnifiedSchema_init) = None) /\
  (exists q, lookup String.eqb "job_title" (demographic_questions UnifiedSchema_init) = Some q /\
             (3 <= Z.of_nat (List.length (years_available q)))%Z /\
             lookup String.eqb "job_title" (get_core_trend_questions UnifiedSchema_init) = None).
Proof.
  assert (Hf : get_core_trend_questions UnifiedSchema_init
               = filter (fun kv => (3 <=? Z.of_nat (List.length (years_available (snd kv))))%Z)
                   (core_questions UnifiedSchema_init)).
  { unfold get_core_trend_questions.
    apply (comprehension_filter String.eqb String.eqb_eq
             (fun _ q => (3 <=? Z.of_nat (List.length (years_available q)))%Z)), core_keys_NoDup. }
  assert (Hex : forall qid q,
      lookup String.eqb qid (demographic_questions UnifiedSchema_init) = Some q \/
      lookup String.eqb qid (supplementary_questions UnifiedSchema_init) = Some q \/
      lookup String.eqb qid (historical_questions UnifiedSchema_init) = Some q ->
      lookup String.eqb qid (get_core_trend_questions UnifiedSchema_init) = None).
  { intros qid q Hq; apply (lookup_notin String.eqb String.eqb_eq).
    intro Hin; apply keys_comprehension_incl in Hin.
    pose proof catalogue_keys_NoDup as Hnd.
    unfold catalogue_items, keys in Hnd; rewrite !map_app in Hnd.
    apply (NoDup_app_disjoint _ _ qid Hnd); [|exact Hin].
    rewrite !in_app_iff.
    destruct Hq as [H|[H|H]]; apply (lookup_some_keys String.eqb String.eqb_eq) in H; auto. }
  split; [|split; [exact Hex|]].
  - intros qid q; rewrite Hf.
    rewrite (lookup_filter String.eqb String.eqb_eq) by apply core_keys_NoDup.
    simpl; rewrite Z.leb_le; reflexivity.
  - destruct (lookup String.eqb "job_title" (demographic_questions UnifiedSchema_init))
      as [q|] eqn:E; [|vm_compute in E; discriminate].
    exists q; split; [reflexivity|split].
    + vm_compute in E; injection E as <-; simpl; lia.
    + apply (Hex _ q); left; exact E.
Qed.

Lemma core_trend_questions_spec_witness :
  lookup String.eqb "research_area" (get_core_trend_questions UnifiedSchema_init) = None.
Proof.
  destruct (lookup String.eqb "research_area" (demographic_questions UnifiedSchema_init))
    as [q|] eqn:E; [|vm_compute in E; discriminate].
  apply (proj1 (proj2 core_trend_questions_spec) _ q); left; exact E.
Defined.

(** C8: the question identifiers of the four categories are pairwise
    distinct, so the merge of [get_all_questions()] overwrites nothing: its
    result is the four mappings one after the other and has as many entries
    as the four together (18). *)
Theorem question_ids_unique :
  NoDup (keys (core_questions UnifiedSchema_init) ++ keys (demographic_questions UnifiedSchema_init)
         ++ keys (supplementary_questions UnifiedSchema_init)
         ++ keys (historical_questions UnifiedSchema_init)) /\
  get_all_questions UnifiedSchema_init
  = core_questions UnifiedSchema_init ++ demographic_questions UnifiedSchema_init
    ++ supplementary_questions UnifiedSchema_init ++ historical_questions UnifiedSchema_init /\
  List.length (get_all_questions UnifiedSchema_init)
  = (List.length (core_questions UnifiedSchema_init)
     + List.length (demographic_questions UnifiedSchema_init)
     + List.length (supplementary_questions UnifiedSchema_init)
     + List.length (historical_questions UnifiedSchema_init))%nat /\
  List.length (get_all_questions UnifiedSchema_init) = 18%nat.
Proof.
  split; [|split; [exact get_all_questions_items|split]].
  - pose proof catalogue_keys_NoDup as H.
    unfold catalogue_items, keys in H; rewrite !map_app in H; exact H.
  - rewrite get_all_questions_items; unfold catalogue_items; rewrite !length_app; lia.
  - by_computation.
Qed.

(** C7: for every question of the four categories, the years of its
    [column_mappings] are exactly its [years_available]. *)
Theorem column_mappings_match_years :
  forall q,
    In q (values (core_questions UnifiedSchema_init) ++ values (demographic_questions UnifiedSchema_init)
          ++ values (supplementary_questions UnifiedSchema_init)
          ++ values (historical_questions UnifiedSchema_init)) ->
    forall y, In y (keys (column_mappings q)) <-> In y (years_available q).
Proof.
  intros q Hq y.
  assert (Hchk : forallb (fun q => forallb (fun y => z_in y (years_available q)) (keys (column_mappings q))
                                   && forallb (fun y => z_in y (keys (column_mappings q))) (years_available q))
                   (values (catalogue_items UnifiedSchema_init)) = true) by by_computation.
  unfold catalogue_items, values in Hchk; rewrite !map_app in Hchk.
  rewrite forallb_forall in Hchk; specialize (Hchk q Hq).
  apply andb_true_iff in Hchk as [H1 H2]; rewrite forallb_forall in H1, H2.
  split; intro H; apply z_in_spec; auto.
Qed.

Lemma column_mappings_match_years_witness :
  exists q, lookup String.eqb "job_title" (demographic_questions UnifiedSchema_init) = Some q /\
            (In 2019%Z (keys (column_mappings q)) <-> In 2019%Z (years_available q)).
Proof.
  destruct (lookup String.eqb "job_title" (demographic_questions UnifiedSchema_init))
    as [q|] eqn:E; [|vm_compute in E; discriminate].
  exists q; split; [reflexivity|].
  apply column_mappings_match_years.
  apply in_or_app; right; apply in_or_app; left.
  exact (lookup_values String.eqb _ _ _ E).
Defined.

(** C10: in each of the four category mappings every key is the
    [question_id] of its value; hence so in [get_all_questions()] and in the
    results of the three filtering queries. *)
Theorem keys_are_question_ids :
  (forall k q, In (k, q) (catalogue_items UnifiedSchema_init) -> question_id q = k) /\
  (forall k q, In (k, q) (get_all_questions UnifiedSchema_init) -> question_id q = k) /\
  (forall year k q, In (k, q) (get_questions_by_year UnifiedSchema_init year) -> question_id q = k) /\
  (forall min_years k q,
      In (k, q) (get_longitudinal_questions UnifiedSchema_init min_years) -> question_id q = k) /\
  (forall k q, In (k, q) (get_core_trend_questions UnifiedSchema_init) -> question_id q = k).
Proof.
  assert (Hcat : forall k q, In (k, q) (catalogue_items UnifiedSchema_init) -> question_id q = k).
  { assert (Hchk : forallb (fun kv => String.eqb (question_id (snd kv)) (fst kv))
                     (catalogue_items UnifiedSchema_init) = true) by by_computation.
    rewrite forallb_forall in Hchk.
    intros k q Hin; apply String.eqb_eq, (Hchk (k, q) Hin). }
  assert (Hall : forall k q, In (k, q) (get_all_questions UnifiedSchema_init) -> question_id q = k)
    by (rewrite get_all_questions_items; exact Hcat).
  split; [exact Hcat|split; [exact Hall|split; [|split]]].
  - intros y k q Hin; rewrite (proj1 questions_by_year_spec) in Hin.
    apply filter_In in Hin as [Hin _]; exact (Hall k q Hin).
  - intros m k q Hin; unfold get_longitudinal_questions in Hin.
    rewrite (comprehension_filter String.eqb String.eqb_eq
               (fun _ q => (m <=? Z.of_nat (List.length (years_available q)))%Z))
      in Hin by apply get_all_questions_NoDup.
    apply filter_In in Hin as [Hin _]; exact (Hall k q Hin).
  - intros k q Hin; unfold get_core_trend_questions in Hin.
    rewrite (comprehension_filter String.eqb String.eqb_eq
               (fun _ q => (3 <=? Z.of_nat (List.length (years_available q)))%Z))
      in Hin by apply core_keys_NoDup.
    apply filter_In in Hin as [Hin _]; apply Hcat, in_or_app; left; exact Hin.
Qed.

Lemma keys_are_question_ids_witness :
  exists q, lookup String.eqb "preprinting_attitude" (get_core_trend_questions UnifiedSchema_init)
            = Some q /\ question_id q = "preprinting_attitude".
Proof.
  destruct (lookup String.eqb "preprinting_attitude" (get_core_trend_questions UnifiedSchema_init))
    as [q|] eqn:E; [|vm_compute in E; discriminate].
  exists q; split; [reflexivity|].
  apply (proj2 (proj2 (proj2 (proj2 keys_are_question_ids)))).
  apply (lookup_In String.eqb String.eqb_eq); [apply comprehension_NoDup, String.eqb_eq | exact E].
Defined.

(** C6: [create_harmonized_column_mapping()] sends each [question_id] of
    the catalogue, and nothing else, to that question's [column_mappings];
    for [open_access_attitude] it is {2021: Q2.7_1, 2022: Q2.11_1,
    2023: Q2.10.a, 2024: Q12_1}. *)
Theorem harmonized_column_mapping_spec :
  create_harmonized_column_mapping
  = map (fun kv => (fst kv, column_mappings (snd kv))) (get_all_questions UnifiedSchema_init) /\
  (forall qid, In qid (keys create_harmonized_column_mapping) <->
               In qid (map question_id (values (get_all_questions UnifiedSchema_init)))) /\
  (forall qid q, lookup String.eqb qid (get_all_questions UnifiedSchema_init) = Some q ->
                 lookup String.eqb qid create_harmonized_column_mapping = Some (column_mappings q)) /\
  lookup String.eqb "open_access_attitude" create_harmonized_column_mapping
  = Some [(2021%Z, "Q2.7_1"); (2022%Z, "Q2.11_1"); (2023%Z, "Q2.10.a"); (2024%Z, "Q12_1")].
Proof.
  assert (Hm : create_harmonized_column_mapping
               = map (fun kv => (fst kv, column_mappings (snd kv))) (get_all_questions UnifiedSchema_init)).
  { unfold create_harmonized_column_mapping; cbv zeta.
    apply (fold_setitem_map String.eqb String.eqb_eq column_mappings _ []).
    apply get_all_questions_NoDup. }
  split; [exact Hm|split; [|split]].
  - intro qid; rewrite Hm.
    assert (Hk : map question_id (values (get_all_questions UnifiedSchema_init))
                 = keys (get_all_questions UnifiedSchema_init)) by by_computation.
    rewrite Hk; unfold keys; rewrite map_map; reflexivity.
  - intros qid q Hq; rewrite Hm, lookup_map, Hq; reflexivity.
  - by_computation.
Qed.

Lemma harmonized_column_mapping_spec_witness :
  exists q, lookup String.eqb "job_title" (get_all_questions UnifiedSchema_init) = Some q /\
            lookup String.eqb "job_title" create_harmonized_column_mapping = Some (column_mappings q).
Proof.
  destruct (lookup String.eqb "job_title" (get_all_questions UnifiedSchema_init))
    as [q|] eqn:E; [|vm_compute in E; discriminate].
  exists q; split; [reflexivity|].
  apply (proj1 (proj2 (proj2 harmonized_column_mapping_spec))); exact E.
Defined.

(** ** Further properties of the queries and of the harmonisation *)

Section Props2.
Context {K V : Type} (eqb : K -> K -> bool).
Hypothesis eqb_spec : forall a b, eqb a b = true <-> a = b.

Lemma lookup_update (x : K) (d e : dict K V) :
  NoDup (keys e) ->
  lookup eqb x (update eqb d e)
  = match lookup eqb x e with Some v => Some v | None => lookup eqb x d end.
Proof.
  unfold update; revert d; induction e as [|[k v] e IH]; intros d Hnd; simpl; [reflexivity|].
  inversion Hnd as [|? ? Hn Hnd']; subst.
  rewrite IH by exact Hnd'.
  rewrite (lookup_setitem eqb eqb_spec).
  destruct (eqb x k) eqn:Hx; [|reflexivity].
  apply eqb_spec in Hx; subst.
  rewrite (lookup_notin eqb eqb_spec e k Hn); reflexivity.
Qed.

Lemma lookup_keys_some (d : dict K V) (k : K) :
  In k (keys d) -> exists v, lookup eqb k d = Some v.
Proof.
  induction d as [|[k' v'] d IH]; simpl; [tauto|].
  intros [<-|H]; [rewrite (eqb_same eqb eqb_spec); eexists; reflexivity|].
  destruct (eqb k k'); [eexists; reflexivity | exact (IH H)].
Qed.
End Props2.

Lemma by_year_filter (self : UnifiedSchema) (year : Z) :
  get_questions_by_year self year
  = filter (fun kv => z_in year (years_available (snd kv))) (get_all_questions self).
Proof.
  unfold get_questions_by_year.
  apply (comprehension_filter String.eqb String.eqb_eq
           (fun _ q => z_in year (years_available q))), get_all_questions_NoDup.
Qed.

Lemma longitudinal_filter (self : UnifiedSchema) (k : Z) :
  get_longitudinal_questions self k
  = filter (fun kv => (k <=? Z.of_nat (List.length (years_available (snd kv))))%Z)
      (get_all_questions self).
Proof.
  unfold get_longitudinal_questions.
  apply (comprehension_filter String.eqb String.eqb_eq
           (fun _ q => (k <=? Z.of_nat (List.length (years_available q)))%Z)),
    get_all_questions_NoDup.
Qed.

Lemma core_trend_filter :
  get_core_trend_questions UnifiedSchema_init
  = filter (fun kv => (3 <=? Z.of_nat (List.length (years_available (snd kv))))%Z)
      (core_questions UnifiedSchema_init).
Proof.
  unfold get_core_trend_questions.
  apply (comprehension_filter String.eqb String.eqb_eq
           (fun _ q => (3 <=? Z.of_nat (List.length (years_available q)))%Z)), core_keys_NoDup.
Qed.

Lemma mapping_as_map :
  create_harmonized_column_mapping
  = map (fun kv => (fst kv, column_mappings (snd kv))) (get_all_questions UnifiedSchema_init).
Proof.
  unfold create_harmonized_column_mapping; cbv zeta.
  apply (fold_setitem_map String.eqb String.eqb_eq column_mappings _ []).
  apply get_all_questions_NoDup.
Qed.

Lemma harmonize_at_index (response : string) (source_scale target_scale : list string) (i : nat) :
  py_index response source_scale = Some i ->
  harmonize_response_scale response source_scale target_scale
  = if Nat.ltb i (List.length target_scale) then py_getitem target_scale i else Some response.
Proof.
  intro Hi; unfold harmonize_response_scale.
  rewrite (proj2 (str_in_spec response source_scale))
    by exact (nth_error_In _ _ (py_index_nth _ _ _ Hi)).
  rewrite Hi; reflexivity.
Qed.

Lemma py_index_some (x : string) (xs : list string) :
  In x xs -> exists i, py_index x xs = Some i.
Proof.
  intro H; destruct (py_index x xs) as [i|] eqn:E; [exists i; reflexivity|].
  apply py_index_none in E; contradiction.
Qed.

Lemma py_index_NoDup (xs : list string) (i : nat) (x : string) :
  NoDup xs -> nth_error xs i = Some x -> py_index x xs = Some i.
Proof.
  intros Hnd Hi; apply py_index_first; [exact Hi|].
  intros j Hj Hjx.
  assert (Hlen : (j < List.length xs)%nat) by (apply nth_error_Some; congruence).
  pose proof (proj1 (NoDup_nth_error xs) Hnd j i Hlen (eq_trans Hjx (eq_sym Hi))); lia.
Qed.

(** Harmonising a response onto its own scale returns the response. *)
Theorem harmonize_same_scale :
  forall response scale, harmonize_response_scale response scale scale = Some response.
Proof.
  intros r s; unfold harmonize_response_scale.
  destruct (str_in r s) eqn:E; [|reflexivity].
  apply str_in_spec, py_index_some in E as [i Hi]; rewrite Hi.
  pose proof (py_index_nth _ _ _ Hi) as Hn.
  assert (Hlt : (i < List.length s)%nat) by (apply nth_error_Some; congruence).
  apply Nat.ltb_lt in Hlt; rewrite Hlt; exact Hn.
Qed.

(** The result of the harmonisation is the response itself or a label of
    [target_scale]; no other string is ever produced. *)
Theorem harmonize_result_range :
  forall response source_scale target_scale v,
    harmonize_response_scale response source_scale target_scale = Some v ->
    v = response \/ In v target_scale.
Proof.
  intros r s t v; unfold harmonize_response_scale.
  destruct (str_in r s); [|intro H; injection H as <-; left; reflexivity].
  destruct (py_index r s) as [i|]; [|discriminate].
  destruct (Nat.ltb i (List.length t)); [|intro H; injection H as <-; left; reflexivity].
  intro H; right; exact (nth_error_In _ _ H).
Qed.

Lemma harmonize_result_range_witness :
  harmonize_response_scale "Neutral" (value AGREEMENT_5) (value AGREEMENT_5_ALT)
  = Some "Neutral / No opinion" /\ In "Neutral / No opinion" (value AGREEMENT_5_ALT).
Proof.
  split; [reflexivity|].
  destruct (harmonize_result_range "Neutral" (value AGREEMENT_5) (value AGREEMENT_5_ALT)
              "Neutral / No opinion" eq_refl) as [H|H]; [discriminate | exact H].
Defined.

(** Between two duplicate-free scales of the same length, the harmonisation
    of a member of the source sends it to a label of the target, and
    harmonising that label back onto the source returns the response. *)
Theorem harmonize_round_trip :
  forall response source_scale target_scale,
    NoDup source_scale -> NoDup target_scale ->
    List.length source_scale = List.length target_scale ->
    In response source_scale ->
    exists v, harmonize_response_scale response source_scale target_scale = Some v /\
              In v target_scale /\
              harmonize_response_scale v target_scale source_scale = Some response.
Proof.
  intros r s t Hs Ht Hlen Hr.
  destruct (py_index_some r s Hr) as [i Hi].
  pose proof (py_index_nth _ _ _ Hi) as Hsi.
  assert (Hlt : (i < List.length t)%nat)
    by (rewrite <- Hlen; apply nth_error_Some; congruence).
  destruct (nth_error t i) as [v|] eqn:Hti; [|apply nth_error_Some in Hlt; contradiction].
  exists v; split; [|split].
  - rewrite (harmonize_at_index r s t i Hi).
    apply Nat.ltb_lt in Hlt; rewrite Hlt; exact Hti.
  - exact (nth_error_In _ _ Hti).
  - rewrite (harmonize_at_index v t s i (py_index_NoDup t i v Ht Hti)).
    rewrite <- Hlen in Hlt; apply Nat.ltb_lt in Hlt; rewrite Hlt; exact Hsi.
Qed.

Lemma harmonize_round_trip_witness :
  exists v, harmonize_response_scale "Rarely" (value FREQUENCY_4) (value FREQUENCY_4_ALT) = Some v /\
            In v (value FREQUENCY_4_ALT) /\
            harmonize_response_scale v (value FREQUENCY_4_ALT) (value FREQUENCY_4) = Some "Rarely".
Proof.
  apply harmonize_round_trip.
  - apply nodupb_NoDup; by_computation.
  - apply nodupb_NoDup; by_computation.
  - reflexivity.
  - simpl; tauto.
Defined.

(** Every named response scale is free of duplicate labels, so a label's
    [index] is its only position. *)
Theorem response_scales_NoDup : forall s : ResponseScale, NoDup (value s).
Proof. intro s; apply nodupb_NoDup; destruct s; by_computation. Qed.

(** Raising [min_years] only removes questions: whatever
    [get_longitudinal_questions(k2)] returns, [get_longitudinal_questions(k1)]
    returns too when [k1 <= k2]. *)
Theorem longitudinal_antitone :
  forall self k1 k2 qid q, (k1 <= k2)%Z ->
    lookup String.eqb qid (get_longitudinal_questions self k2) = Some q ->
    lookup String.eqb qid (get_longitudinal_questions self k1) = Some q.
Proof.
  intros self k1 k2 qid q Hk; rewrite !longitudinal_filter.
  rewrite !(lookup_filter String.eqb String.eqb_eq) by apply get_all_questions_NoDup.
  simpl; rewrite !Z.leb_le; intros [H1 H2]; split; [exact H1 | lia].
Qed.

Lemma longitudinal_antitone_witness :
  exists q, lookup String.eqb "job_title" (get_longitudinal_questions UnifiedSchema_init 2) = Some q.
Proof.
  destruct (lookup String.eqb "job_title" (get_longitudinal_questions UnifiedSchema_init 5))
    as [q|] eqn:E; [|vm_compute in E; discriminate].
  exists q; apply (longitudinal_antitone _ 2 5); [lia | exact E].
Defined.

(** The core trend questions are exactly the entries of
    [get_longitudinal_questions(3)] whose identifier belongs to the core
    category. *)
Theorem core_trend_is_core_longitudinal :
  forall qid q,
    lookup String.eqb qid (get_core_trend_questions UnifiedSchema_init) = Some q <->
    lookup String.eqb qid (get_longitudinal_questions UnifiedSchema_init 3) = Some q /\
    In qid (keys (core_questions UnifiedSchema_init)).
Proof.
  intros qid q.
  rewrite core_trend_filter, longitudinal_filter.
  rewrite (lookup_filter String.eqb String.eqb_eq) by apply core_keys_NoDup.
  rewrite (lookup_filter String.eqb String.eqb_eq) by apply get_all_questions_NoDup.
  rewrite (lookup_In String.eqb String.eqb_eq) by apply core_keys_NoDup.
  rewrite (lookup_In String.eqb String.eqb_eq) by apply get_all_questions_NoDup.
  rewrite get_all_questions_items; unfold catalogue_items.
  split.
  - intros [Hin Hp]; split; [split; [apply in_or_app; left; exact Hin | exact Hp]|].
    exact (in_map fst _ _ Hin).
  - intros [[Hin Hp] Hk]; split; [|exact Hp].
    apply in_app_or in Hin as [Hin|Hin]; [exact Hin|exfalso].
    pose proof catalogue_keys_NoDup as Hnd; unfold catalogue_items, keys in Hnd.
    rewrite map_app in Hnd.
    apply (NoDup_app_disjoint _ _ qid Hnd); [|exact Hk].
    exact (in_map fst _ _ Hin).
Qed.

(** [get_all_questions()] merges the categories in the order core,
    demographic, supplementary, historical, so for an identifier present in
    several of them the later category's question wins. *)
Theorem get_all_questions_last_wins :
  forall self qid,
    NoDup (keys (core_questions self)) -> NoDup (keys (demographic_questions self)) ->
    NoDup (keys (supplementary_questions self)) -> NoDup (keys (historical_questions self)) ->
    lookup String.eqb qid (get_all_questions self)
    = match lookup String.eqb qid (historical_questions self) with
      | Some q => Some q
      | None =>
        match lookup String.eqb qid (supplementary_questions self) with
        | Some q => Some q
        | None =>
          match lookup String.eqb qid (demographic_questions self) with
          | Some q => Some q
          | None => lookup String.eqb qid (core_questions self)
          end
        end
      end.
Proof.
  intros self qid H1 H2 H3 H4; unfold get_all_questions.
  rewrite !(lookup_update String.eqb String.eqb_eq) by assumption.
  destruct (lookup String.eqb qid (historical_questions self)); [reflexivity|].
  destruct (lookup String.eqb qid (supplementary_questions self)); [reflexivity|].
  destruct (lookup String.eqb qid (demographic_questions self)); [reflexivity|].
  destruct (lookup String.eqb qid (core_questions self)); reflexivity.
Qed.

Lemma get_all_questions_last_wins_witness :
  lookup String.eqb "open_access_attitude"
    (get_all_questions
       {| core_questions := core_questions UnifiedSchema_init;
          demographic_questions :=
            qdict [("open_access_attitude",
                    {| question_id := "open_access_attitude"; question_text := "";
                       question_type := DEMOGRAPHIC; response_scale := [];
                       years_available := [2017%Z]; column_mappings := ydict [(2017%Z, "Q1")];
                       notes := None |})];
          supplementary_questions := [];
          historical_questions := [] |})
  = Some {| question_id := "open_access_attitude"; question_text := "";
            question_type := DEMOGRAPHIC; response_scale := [];
            years_available := [2017%Z]; column_mappings := ydict [(2017%Z, "Q1")];
            notes := None |}.
Proof.
  rewrite get_all_questions_last_wins.
  - reflexivity.
  - exact core_keys_NoDup.
  - apply nodupb_NoDup; by_computation.
  - constructor.
  - constructor.
Defined.

(** Only the survey years 2017, 2019 and 2021-2024 occur in the catalogue:
    for any other year [get_questions_by_year] returns the empty mapping. *)
Theorem questions_by_year_outside_survey :
  forall year, ~ In year [2017; 2019; 2021; 2022; 2023; 2024]%Z ->
    get_questions_by_year UnifiedSchema_init year = [].
Proof.
  intros y Hy; rewrite by_year_filter; apply filter_all_false.
  assert (Hchk : forallb (fun kv => forallb (fun y => z_in y [2017; 2019; 2021; 2022; 2023; 2024]%Z)
                                      (years_available (snd kv)))
                   (get_all_questions UnifiedSchema_init) = true) by by_computation.
  rewrite forallb_forall in Hchk.
  intros kv Hkv; destruct (z_in y (years_available (snd kv))) eqn:E; [|reflexivity].
  exfalso; apply Hy; apply z_in_spec in E.
  specialize (Hchk kv Hkv); rewrite forallb_forall in Hchk.
  apply z_in_spec, Hchk, E.
Qed.

Lemma questions_by_year_outside_survey_witness :
  get_questions_by_year UnifiedSchema_init 2018 = [].
Proof. apply questions_by_year_outside_survey; simpl; lia. Defined.

(** Every question of the catalogue is available in at least one year, so
    [get_longitudinal_questions(1)] returns the whole catalogue. *)
Theorem every_question_has_a_year :
  (forall q, In q (values (get_all_questions UnifiedSchema_init)) -> years_available q <> []) /\
  get_longitudinal_questions UnifiedSchema_init 1 = get_all_questions UnifiedSchema_init.
Proof.
  assert (Hchk : forallb (fun kv => negb (Nat.eqb (List.length (years_available (snd kv))) 0))
                   (get_all_questions UnifiedSchema_init) = true) by by_computation.
  rewrite forallb_forall in Hchk.
  split.
  - intros q Hq; apply in_map_iff in Hq as [kv [<- Hkv]].
    specialize (Hchk kv Hkv); intro E; rewrite E in Hchk; discriminate.
  - rewrite longitudinal_filter; apply filter_all_true.
    intros kv Hkv; specialize (Hchk kv Hkv).
    apply negb_true_iff, Nat.eqb_neq in Hchk; apply Z.leb_le; lia.
Qed.

Lemma every_question_has_a_year_witness :
  exists q, lookup String.eqb "care_principles_awareness" (get_all_questions UnifiedSchema_init) = Some q /\
            years_available q <> [].
Proof.
  destruct (lookup String.eqb "care_principles_awareness" (get_all_questions UnifiedSchema_init))
    as [q|] eqn:E; [|vm_compute in E; discriminate].
  exists q; split; [reflexivity|].
  apply (proj1 every_question_has_a_year), (lookup_values String.eqb _ _ _ E).
Defined.

(** Every question returned by [get_questions_by_year(y)] has, in
    [create_harmonized_column_mapping()], a source column for year [y]. *)
Theorem by_year_has_column :
  forall year qid q,
    lookup String.eqb qid (get_questions_by_year UnifiedSchema_init year) = Some q ->
    lookup String.eqb qid create_harmonized_column_mapping = Some (column_mappings q) /\
    exists col, lookup Z.eqb year (column_mappings q) = Some col.
Proof.
  intros y qid q H.
  rewrite by_year_filter in H.
  rewrite (lookup_filter String.eqb String.eqb_eq) in H by apply get_all_questions_NoDup.
  destruct H as [Hq Hy]; simpl in Hy; apply z_in_spec in Hy.
  split; [rewrite mapping_as_map, lookup_map, Hq; reflexivity|].
  apply (lookup_keys_some Z.eqb Z.eqb_eq).
  assert (Hchk : forallb (fun q => forallb (fun y => z_in y (keys (column_mappings q))) (years_available q))
                   (values (get_all_questions UnifiedSchema_init)) = true) by by_computation.
  rewrite forallb_forall in Hchk.
  specialize (Hchk q (lookup_values String.eqb _ _ _ Hq)); rewrite forallb_forall in Hchk.
  apply z_in_spec, Hchk, Hy.
Qed.

Lemma by_year_has_column_witness :
  exists q, lookup String.eqb "research_area" (get_questions_by_year UnifiedSchema_init 2021) = Some q /\
            exists col, lookup Z.eqb 2021%Z (column_mappings q) = Some col.
Proof.
  destruct (lookup String.eqb "research_area" (get_questions_by_year UnifiedSchema_init 2021))
    as [q|] eqn:E; [|vm_compute in E; discriminate].
  exists q; split; [reflexivity|].
  exact (proj2 (by_year_has_column 2021 "research_area" q E)).
Defined.
